(** * ProjectHub embedding service: a shallow embedding of
      [src/embedding-service/main.py] and the properties of its handlers.

    The service keeps one module-level global, [model], assigned once by the
    startup hook, and answers three routes.  The handlers are embedded in a
    small monad that threads the module globals, carries the raised exception
    (if any) and records the observable effects of a run: log records and the
    calls made to the sentence-transformers library. *)

From Stdlib Require Import List String ZArith Lia Bool PrimFloat DecimalString.
Import ListNotations.

#[local] Open Scope string_scope.
#[local] Open Scope Z_scope.

(* ================================================================= *)
(** ** Python values used by the service *)

(** [len(l)]: a Python [int], never negative. *)
Definition len {A : Type} (l : list A) : Z := Z.of_nat (List.length l).

(** Truth value of a list: [not l] holds exactly for the empty list. *)
Definition truthy {A : Type} (l : list A) : bool :=
  match l with
  | [] => false
  | _ :: _ => true
  end.

(** [str(n)] for an [int], as an f-string interpolates it. *)
Definition str_int (n : Z) : string := NilZero.string_of_int (Z.to_int n).

(** An exception raised by library code, of [Exception] or one of its
    subclasses, which is what [except Exception] catches: the name of its
    class, [type(e).__name__], and its message, [str(e)].  The handlers
    only ever look at [str(e)]; a bare [raise] passes the exception on as
    it is, class included. *)
Record Exception : Type := mkException
  { class_name : string;
    str : string }.

(** [fastapi.HTTPException(status_code=..., detail=...)]. *)
Record HTTPException : Type := mkHTTPException
  { status_code : Z;
    detail : string }.

(** The plain dicts returned by [health_check] and [root]: string keys in
    insertion order. *)
#[warning="-register-all"]
Inductive value : Type :=
| VStr (s : string)
| VInt (n : Z)
| VBool (b : bool)
| VDict (d : list (string * value)).

Definition dict : Type := list (string * value).

Fixpoint dict_get (k : string) (d : dict) : option value :=
  match d with
  | [] => None
  | (k', v) :: d' => if String.eqb k k' then Some v else dict_get k d'
  end.

(* ================================================================= *)
(** ** The sentence-transformers side *)

(** The two-dimensional float array that [encode] returns for a list of
    sentences: [fst shape] rows of [snd shape] floats each. *)
Record ndarray : Type := mkNdarray
  { shape : nat * nat;
    item : nat -> nat -> float }.

(** [a.tolist()]: the rows of [a], each one a list of floats. *)
Definition tolist (a : ndarray) : list (list float) :=
  map (fun i => map (item a i) (seq 0 (snd (shape a)))) (seq 0 (fst (shape a))).

(** A loaded model, opaque but for its [encode] method, called as
    [encode(sentences, normalize_embeddings=..., show_progress_bar=...)].
    The call either raises or returns an array. *)
Record SentenceTransformer : Type := mkSentenceTransformer
  { encode : list string -> bool -> bool -> Exception + ndarray }.

(* ================================================================= *)
(** ** Module globals, effects and the handler monad *)

(** Line 29: [model: Optional[SentenceTransformer] = None]. *)
Record Globals : Type := mkGlobals
  { model : option SentenceTransformer }.

Definition initial_globals : Globals := {| model := None |}.

(** Line 30. *)
Definition MODEL_NAME : string := "all-MiniLM-L6-v2".

(** What a run does that can be seen from outside, besides its result. *)
Inductive Event : Type :=
| LogInfo (msg : string)
| LogError (msg : string)
| LoadCall (name : string)
| EncodeCall (sentences : list string) (normalize_embeddings show_progress_bar : bool).

(** The result of running a piece of handler code: it returned or raised,
    the globals it leaves behind, and the effects it had, oldest first. *)
Record Run (E A : Type) : Type := mkRun
  { outcome : E + A;
    globals : Globals;
    trace : list Event }.

Arguments mkRun {E A} _ _ _.
Arguments outcome {E A} _.
Arguments globals {E A} _.
Arguments trace {E A} _.

Definition Py (E A : Type) : Type := Globals -> Run E A.

Definition ret {E A : Type} (a : A) : Py E A :=
  fun g => mkRun (inr a) g [].

Definition raise {E A : Type} (e : E) : Py E A :=
  fun g => mkRun (inl e) g [].

Definition bind {E A B : Type} (c : Py E A) (k : A -> Py E B) : Py E B :=
  fun g =>
    let r := c g in
    match outcome r with
    | inl e => mkRun (inl e) (globals r) (trace r)
    | inr a =>
        let r' := k a (globals r) in
        mkRun (outcome r') (globals r') (trace r ++ trace r')%list
    end.

(** [try: c  except Exception as e: h e]. *)
Definition try_except {E E' A : Type} (c : Py E A) (h : E -> Py E' A) : Py E' A :=
  fun g =>
    let r := c g in
    match outcome r with
    | inl e =>
        let r' := h e (globals r) in
        mkRun (outcome r') (globals r') (trace r ++ trace r')%list
    | inr a => mkRun (inr a) (globals r) (trace r)
    end.

(** Reading the global [model]. *)
Definition read_model {E : Type} : Py E (option SentenceTransformer) :=
  fun g => mkRun (inr (model g)) g [].

(** [global model; model = m]. *)
Definition assign_model {E : Type} (m : option SentenceTransformer) : Py E unit :=
  fun _ => mkRun (inr tt) {| model := m |} [].

Definition emit {E : Type} (ev : Event) : Py E unit :=
  fun g => mkRun (inr tt) g [ev].

Definition logger_info {E : Type} (msg : string) : Py E unit := emit (LogInfo msg).
Definition logger_error {E : Type} (msg : string) : Py E unit := emit (LogError msg).

(** Turning what a library call did into the monad: it raised or returned. *)
Definition lift {E A : Type} (r : E + A) : Py E A :=
  match r with
  | inl e => raise e
  | inr a => ret a
  end.

Declare Scope py_scope.
Delimit Scope py_scope with py.
Notation "x <- c ;; k" := (bind c (fun x => k))
  (at level 100, c at next level, right associativity) : py_scope.
Notation "c ;; k" := (bind c (fun _ => k))
  (at level 100, right associativity) : py_scope.
#[local] Open Scope py_scope.

(** [m.encode(sentences, normalize_embeddings=n, show_progress_bar=p)] on
    whatever the global [model] holds; on [None] the attribute lookup
    raises. *)
Definition model_encode (m : option SentenceTransformer)
    (sentences : list string) (n p : bool) : Py Exception ndarray :=
  match m with
  | None => raise (mkException "AttributeError"
                     "'NoneType' object has no attribute 'encode'")
  | Some mdl => emit (EncodeCall sentences n p) ;; lift (encode mdl sentences n p)
  end.

(* ================================================================= *)
(** ** Request and response models (lines 44-51) *)

Module EmbeddingRequest.
Record t : Type := mk
  { texts : list string;
    normalize : bool }.

(** The pydantic constructor: [normalize] is a keyword with default
    [True]; [None] here stands for a body that leaves the field out. *)
Definition init (texts : list string) (normalize : option bool) : t :=
  {| texts := texts;
     normalize := match normalize with
                  | Some b => b
                  | None => true
                  end |}.
End EmbeddingRequest.

Module EmbeddingResponse.
Record t : Type := mk
  { embeddings : list (list float);
    model : string;
    dimensions : Z }.
End EmbeddingResponse.

(* ================================================================= *)
(** ** Startup hook (lines 32-42) *)

Section Startup.

(** The library constructor [SentenceTransformer(name)]: it loads the
    named pretrained model, or raises. *)
Variable SentenceTransformer_init : string -> Exception + SentenceTransformer.

Definition load_model : Py Exception unit :=
  try_except
    (logger_info ("Loading model: " ++ MODEL_NAME) ;;
     emit (LoadCall MODEL_NAME) ;;
     m <- lift (SentenceTransformer_init MODEL_NAME) ;;
     assign_model (Some m) ;;
     logger_info "Model loaded successfully")
    (fun e =>
       logger_error ("Failed to load model: " ++ str e) ;;
       raise e).

End Startup.

(* ================================================================= *)
(** ** Route handlers *)

(** [GET /health] (lines 53-60). *)
Definition health_check : Py Empty_set dict :=
  m <- read_model ;;
  ret [ ("status", VStr "healthy");
        ("model", VStr MODEL_NAME);
        ("model_loaded", VBool (match m with Some _ => true | None => false end)) ].

(** The [dimensions] argument of the response (line 104). *)
Definition first_len (embeddings_list : list (list float)) : Z :=
  match embeddings_list with
  | v :: _ => len v
  | [] => 0
  end.

(** [POST /embed] (lines 62-109). *)
Definition generate_embeddings (request : EmbeddingRequest.t)
  : Py HTTPException EmbeddingResponse.t :=
  m <- read_model ;;
  match m with
  | None => raise (mkHTTPException 503 "Model not loaded")
  | Some _ =>
      if negb (truthy (EmbeddingRequest.texts request)) then
        raise (mkHTTPException 400 "No texts provided")
      else if len (EmbeddingRequest.texts request) >? 100 then
        raise (mkHTTPException 400 "Maximum 100 texts per request")
      else
        try_except
          (m' <- read_model ;;
           embeddings <- model_encode m'
                           (EmbeddingRequest.texts request)
                           (EmbeddingRequest.normalize request)
                           false ;;
           let embeddings_list := tolist embeddings in
           logger_info ("Generated " ++ str_int (len embeddings_list) ++ " embeddings") ;;
           ret {| EmbeddingResponse.embeddings := embeddings_list;
                  EmbeddingResponse.model := MODEL_NAME;
                  EmbeddingResponse.dimensions := first_len embeddings_list |})
          (fun e =>
             logger_error ("Error generating embeddings: " ++ str e) ;;
             raise (mkHTTPException 500 (str e)))
  end.

(** [GET /] (lines 111-123). *)
Definition root : Py Empty_set dict :=
  ret [ ("service", VStr "ProjectHub Embedding Service");
        ("model", VStr MODEL_NAME);
        ("dimensions", VInt 384);
        ("endpoints", VDict [ ("health", VStr "/health");
                              ("embed", VStr "/embed (POST)");
                              ("docs", VStr "/docs") ]) ].

(** The routes the decorators register, and the globals the process is
    left with after answering a request, or a sequence of them in turn. *)
Inductive Route : Type :=
| GetHealth
| PostEmbed (request : EmbeddingRequest.t)
| GetRoot.

Definition serve (g : Globals) (rt : Route) : Globals :=
  match rt with
  | GetHealth => globals (health_check g)
  | PostEmbed request => globals (generate_embeddings request g)
  | GetRoot => globals (root g)
  end.

Definition serve_all (rts : list Route) (g : Globals) : Globals :=
  fold_left serve rts g.

(* ================================================================= *)
(** ** Stand-in models, to run the handlers on concrete requests *)

Fixpoint float_of_nat (n : nat) : float :=
  match n with
  | O => 0%float
  | S k => (float_of_nat k + 1)%float
  end.

(** A two-dimensional embedding: the unit vector when normalised, else a
    vector as long as the sentence. *)
Definition stub_vector (normalized : bool) (s : string) : list float :=
  if normalized then [1%float; 0%float]
  else [float_of_nat (String.length s); 0%float].

(** Row [i] of the stub's output is the vector of sentence [i]. *)
Definition stub_model : SentenceTransformer :=
  {| encode := fun sentences n _ =>
       inr {| shape := (List.length sentences, 2%nat);
              item := fun i j =>
                nth j (stub_vector n (nth i sentences "")) 0%float |} |}.

(** A model whose inference always fails. *)
Definition failing_model : SentenceTransformer :=
  {| encode := fun _ _ _ =>
       inl (mkException "RuntimeError" "CUDA out of memory") |}.

(** A model hub that knows one model name. *)
Definition stub_hub (name : string) : Exception + SentenceTransformer :=
  if String.eqb name MODEL_NAME then inr stub_model
  else inl (mkException "OSError" ("No such model: " ++ name)).

(** A model that answers every batch with an array of no rows. *)
Definition empty_array : ndarray :=
  {| shape := (0%nat, 384%nat); item := fun _ _ => 0%float |}.

Definition silent_model : SentenceTransformer :=
  {| encode := fun _ _ _ => inr empty_array |}.

Definition loaded (m : SentenceTransformer) : Globals := {| model := Some m |}.

(* ================================================================= *)
(** ** Predicates the statements use *)

(** The run ended in an [HTTPException] with this status code. *)
Definition rejected {A : Type} (code : Z) (r : Run HTTPException A) : Prop :=
  match outcome r with
  | inl e => status_code e = code
  | inr _ => False
  end.

(** A piece of handler code that leaves the module globals as it found
    them, whether it returns or raises. *)
Definition preserves_globals {E A : Type} (c : Py E A) : Prop :=
  forall g, globals (c g) = g.

(** [encode] on this model, when it returns, returns one row per
    sentence. *)
Definition one_row_per_sentence (m : SentenceTransformer) : Prop :=
  forall sentences n p a,
    encode m sentences n p = inr a ->
    fst (shape a) = List.length sentences.

(** The kinds of event in a trace. *)
Definition is_encode_call (ev : Event) : bool :=
  match ev with
  | EncodeCall _ _ _ => true
  | _ => false
  end.

Definition is_load_call (ev : Event) : bool :=
  match ev with
  | LoadCall _ => true
  | _ => false
  end.

Definition is_log_record (ev : Event) : bool :=
  match ev with
  | LogInfo _ | LogError _ => true
  | _ => false
  end.

(** The calls to [encode] a run made, and the records it logged, in
    order. *)
Definition encode_calls (tr : list Event) : list Event := filter is_encode_call tr.
Definition load_calls (tr : list Event) : list Event := filter is_load_call tr.
Definition log_records (tr : list Event) : list Event := filter is_log_record tr.

(** The batch passes both checks of lines 79-86. *)
Definition accepted (texts : list string) : Prop :=
  texts <> [] /\ len texts <= 100.

(** The run made no call to [encode]. *)
Definition no_encode_call {E A : Type} (r : Run E A) : Prop :=
  forall s n p, ~ In (EncodeCall s n p) (trace r).

(* ================================================================= *)
(** ** Lists and arrays *)

Lemma truthy_false_iff {A : Type} (l : list A) : truthy l = false <-> l = [].
Proof. destruct l; simpl; split; congruence. Qed.

Lemma len_nonneg {A : Type} (l : list A) : 0 <= len l.
Proof. unfold len. lia. Qed.

Lemma len_zero_iff {A : Type} (l : list A) : len l = 0 <-> l = [].
Proof.
  destruct l as [|x l]; unfold len; split; intro H;
    try reflexivity; discriminate.
Qed.

Lemma tolist_length (a : ndarray) : List.length (tolist a) = fst (shape a).
Proof. unfold tolist. now rewrite length_map, length_seq. Qed.

Lemma tolist_rows (a : ndarray) :
  Forall (fun v => List.length v = snd (shape a)) (tolist a).
Proof.
  unfold tolist. apply Forall_forall. intros v Hv.
  apply in_map_iff in Hv. destruct Hv as [i [<- _]].
  now rewrite length_map, length_seq.
Qed.

Lemma first_len_rows (a : ndarray) :
  Forall (fun v => len v = first_len (tolist a)) (tolist a).
Proof.
  pose proof (tolist_rows a) as H.
  destruct (tolist a) as [|v rest] eqn:E; [constructor|].
  simpl. inversion H as [|? ? Hv Hrest]; subst.
  apply Forall_forall. intros w Hw.
  rewrite Forall_forall in H. unfold len. now rewrite (H w Hw), Hv.
Qed.

(* ================================================================= *)
(** ** The frame of the monad's operations *)

Create HintDb frame.

Lemma preserves_ret {E A : Type} (a : A) : preserves_globals (ret (E := E) a).
Proof. intro g. reflexivity. Qed.

Lemma preserves_raise {E A : Type} (e : E) : preserves_globals (raise (A := A) e).
Proof. intro g. reflexivity. Qed.

Lemma preserves_read_model {E : Type} : preserves_globals (read_model (E := E)).
Proof. intro g. reflexivity. Qed.

Lemma preserves_emit {E : Type} (ev : Event) : preserves_globals (emit (E := E) ev).
Proof. intro g. reflexivity. Qed.

Lemma preserves_lift {E A : Type} (r : E + A) : preserves_globals (lift r).
Proof. destruct r; intro g; reflexivity. Qed.

Lemma preserves_bind {E A B : Type} (c : Py E A) (k : A -> Py E B) :
  preserves_globals c -> (forall a, preserves_globals (k a)) ->
  preserves_globals (bind c k).
Proof.
  intros Hc Hk g. unfold bind. specialize (Hc g).
  destruct (outcome (c g)); simpl; [assumption|].
  rewrite Hk. assumption.
Qed.

Lemma preserves_try_except {E E' A : Type} (c : Py E A) (h : E -> Py E' A) :
  preserves_globals c -> (forall e, preserves_globals (h e)) ->
  preserves_globals (try_except c h).
Proof.
  intros Hc Hh g. unfold try_except. specialize (Hc g).
  destruct (outcome (c g)); simpl; [|assumption].
  rewrite Hh. assumption.
Qed.

#[local] Hint Resolve preserves_ret preserves_raise preserves_read_model
  preserves_emit preserves_lift : frame.

Ltac frame :=
  repeat first
    [ progress auto with frame
    | apply preserves_bind; [|intro]
    | apply preserves_try_except; [|intro]
    | match goal with
      | |- preserves_globals (match ?x with _ => _ end) => destruct x
      end ].

Lemma preserves_model_encode m sentences n p :
  preserves_globals (model_encode m sentences n p).
Proof. unfold model_encode, logger_info, logger_error. frame. Qed.

Lemma preserves_generate_embeddings request :
  preserves_globals (generate_embeddings request).
Proof.
  unfold generate_embeddings, logger_info, logger_error.
  pose proof preserves_model_encode. frame.
Qed.

Lemma preserves_health_check : preserves_globals health_check.
Proof. unfold health_check. frame. Qed.

Lemma preserves_root : preserves_globals root.
Proof. unfold root. frame. Qed.

Lemma serve_preserves g rt : serve g rt = g.
Proof.
  destruct rt as [|request|]; simpl.
  - apply preserves_health_check.
  - apply preserves_generate_embeddings.
  - apply preserves_root.
Qed.

(* ================================================================= *)
(** ** What [generate_embeddings] does, case by case *)

Section EmbedRuns.

Variable request : EmbeddingRequest.t.
Variable g : Globals.

Let texts := EmbeddingRequest.texts request.
Let normalize := EmbeddingRequest.normalize request.

Lemma embed_run_unloaded :
  model g = None ->
  generate_embeddings request g
  = mkRun (inl (mkHTTPException 503 "Model not loaded")) g [].
Proof.
  intro Hm. unfold generate_embeddings, bind, read_model. simpl.
  rewrite Hm. reflexivity.
Qed.

Lemma embed_run_no_texts m :
  model g = Some m -> texts = [] ->
  generate_embeddings request g
  = mkRun (inl (mkHTTPException 400 "No texts provided")) g [].
Proof.
  intros Hm Ht. unfold generate_embeddings, bind, read_model. simpl.
  rewrite Hm. fold texts. rewrite Ht. reflexivity.
Qed.

Lemma embed_run_too_many m :
  model g = Some m -> len texts > 100 ->
  generate_embeddings request g
  = mkRun (inl (mkHTTPException 400 "Maximum 100 texts per request")) g [].
Proof.
  intros Hm Ht. unfold generate_embeddings, bind, read_model. simpl.
  rewrite Hm. fold texts.
  destruct texts as [|t ts] eqn:E; [unfold len in Ht; simpl in Ht; lia|].
  simpl negb. cbv iota.
  destruct (Z.gtb_spec (len (t :: ts)) 100) as [_|Hle]; [reflexivity|lia].
Qed.

Lemma embed_run_encode_raised m e :
  model g = Some m -> texts <> [] -> len texts <= 100 ->
  encode m texts normalize false = inl e ->
  generate_embeddings request g
  = mkRun (inl (mkHTTPException 500 (str e))) g
      [ EncodeCall texts normalize false;
        LogError ("Error generating embeddings: " ++ str e) ].
Proof.
  intros Hm Hne Hle He. unfold generate_embeddings, bind, read_model. simpl.
  rewrite Hm. fold texts normalize.
  destruct texts as [|t ts] eqn:E; [congruence|].
  simpl negb. cbv iota.
  destruct (Z.gtb_spec (len (t :: ts)) 100) as [Hgt|_]; [lia|].
  unfold try_except, bind, model_encode, emit, logger_error, logger_info, raise.
  simpl. rewrite Hm. simpl. rewrite He. reflexivity.
Qed.

Lemma embed_run_encode_returned m a :
  model g = Some m -> texts <> [] -> len texts <= 100 ->
  encode m texts normalize false = inr a ->
  generate_embeddings request g
  = mkRun (inr {| EmbeddingResponse.embeddings := tolist a;
                  EmbeddingResponse.model := MODEL_NAME;
                  EmbeddingResponse.dimensions := first_len (tolist a) |}) g
      [ EncodeCall texts normalize false;
        LogInfo ("Generated " ++ str_int (len (tolist a)) ++ " embeddings") ].
Proof.
  intros Hm Hne Hle He. unfold generate_embeddings, bind, read_model. simpl.
  rewrite Hm. fold texts normalize.
  destruct texts as [|t ts] eqn:E; [congruence|].
  simpl negb. cbv iota.
  destruct (Z.gtb_spec (len (t :: ts)) 100) as [Hgt|_]; [lia|].
  unfold try_except, bind, model_encode, emit, logger_error, logger_info, ret.
  simpl. rewrite Hm. simpl. rewrite He. reflexivity.
Qed.

(** The five cases above are all there are. *)
Lemma embed_run_cases :
  (model g = None)
  \/ (exists m, model g = Some m /\ texts = [])
  \/ (exists m, model g = Some m /\ len texts > 100)
  \/ (exists m e, model g = Some m /\ texts <> [] /\ len texts <= 100
                  /\ encode m texts normalize false = inl e)
  \/ (exists m a, model g = Some m /\ texts <> [] /\ len texts <= 100
                  /\ encode m texts normalize false = inr a).
Proof.
  destruct (model g) as [m|] eqn:Hm; [|now left].
  right.
  destruct texts as [|t ts] eqn:Et; [left; now exists m|].
  right.
  destruct (Z_gt_le_dec (len (t :: ts)) 100) as [Hgt|Hle]; [left; now exists m|].
  right.
  destruct (encode m (t :: ts) normalize false) as [e|a] eqn:He.
  - left. exists m, e. repeat split; try assumption. discriminate.
  - right. exists m, a. repeat split; try assumption. discriminate.
Qed.

End EmbedRuns.

(** A response comes only from the last case: the model is loaded, the
    batch is accepted and [encode] returned the array the response is
    shaped from. *)
Lemma embed_returns_inv request g resp :
  outcome (generate_embeddings request g) = inr resp ->
  exists m a,
    model g = Some m
    /\ EmbeddingRequest.texts request <> []
    /\ len (EmbeddingRequest.texts request) <= 100
    /\ encode m (EmbeddingRequest.texts request)
         (EmbeddingRequest.normalize request) false = inr a
    /\ resp = {| EmbeddingResponse.embeddings := tolist a;
                 EmbeddingResponse.model := MODEL_NAME;
                 EmbeddingResponse.dimensions := first_len (tolist a) |}.
Proof.
  intro H.
  destruct (embed_run_cases request g)
    as [Hm | [[m [Hm Ht]] | [[m [Hm Ht]] | [[m [e [Hm [Hne [Hle He]]]]]
                                            | [m [a [Hm [Hne [Hle He]]]]]]]]].
  - rewrite (embed_run_unloaded _ _ Hm) in H. discriminate.
  - rewrite (embed_run_no_texts _ _ _ Hm Ht) in H. discriminate.
  - rewrite (embed_run_too_many _ _ _ Hm Ht) in H. discriminate.
  - rewrite (embed_run_encode_raised _ _ _ _ Hm Hne Hle He) in H. discriminate.
  - rewrite (embed_run_encode_returned _ _ _ _ Hm Hne Hle He) in H.
    simpl in H. injection H as <-. exists m, a. repeat split; assumption.
Qed.

(** The startup hook, when the library constructor returns a model. *)
Lemma load_model_loads init m g :
  init MODEL_NAME = inr m ->
  load_model init g
  = mkRun (inr tt) {| model := Some m |}
      [ LogInfo ("Loading model: " ++ MODEL_NAME);
        LoadCall MODEL_NAME;
        LogInfo "Model loaded successfully" ].
Proof.
  intro H. unfold load_model, try_except, bind, logger_info, emit. simpl.
  rewrite H. reflexivity.
Qed.

(** The startup hook, when the library constructor raises: the exception
    goes on to the caller and [model] keeps what it held. *)
Lemma load_model_fails init e g :
  init MODEL_NAME = inl e ->
  load_model init g
  = mkRun (inl e) g
      [ LogInfo ("Loading model: " ++ MODEL_NAME);
        LoadCall MODEL_NAME;
        LogError ("Failed to load model: " ++ str e) ].
Proof.
  intro H. unfold load_model, try_except, bind, logger_info, emit. simpl.
  rewrite H. reflexivity.
Qed.

Lemma health_check_run g :
  health_check g
  = mkRun
      (inr [ ("status", VStr "healthy");
             ("model", VStr MODEL_NAME);
             ("model_loaded",
              VBool (match model g with Some _ => true | None => false end)) ])
      g [].
Proof. reflexivity. Qed.

(* ================================================================= *)
(** ** Properties of the routes *)

(** C1: with the model loaded and a batch of 1 to 100 texts, if [encode]
    returns one vector per input in input order (row [i] of its array is a
    vector for text [i], for whatever relation [R] between a text and its
    vector one has in mind), then the request returns a response whose
    [embeddings] are those rows: as many as the texts, vector [i] for
    text [i]. *)
Theorem embed_one_vector_per_text
    (R : string -> list float -> Prop) request g m a :
  model g = Some m ->
  EmbeddingRequest.texts request <> [] ->
  len (EmbeddingRequest.texts request) <= 100 ->
  encode m (EmbeddingRequest.texts request)
    (EmbeddingRequest.normalize request) false = inr a ->
  Forall2 R (EmbeddingRequest.texts request) (tolist a) ->
  exists resp,
    outcome (generate_embeddings request g) = inr resp
    /\ len (EmbeddingResponse.embeddings resp)
       = len (EmbeddingRequest.texts request)
    /\ Forall2 R (EmbeddingRequest.texts request)
         (EmbeddingResponse.embeddings resp)
    /\ EmbeddingResponse.embeddings resp = tolist a.
Proof.
  intros Hm Hne Hle He HR.
  rewrite (embed_run_encode_returned _ _ _ _ Hm Hne Hle He).
  eexists. split; [reflexivity|]. simpl.
  repeat split; try assumption.
  unfold len. f_equal. symmetry. exact (Forall2_length HR).
Qed.

Lemma embed_one_vector_per_text_witness :
  exists resp,
    outcome (generate_embeddings
               (EmbeddingRequest.init ["hello"; ""; "projects"] (Some false))
               (loaded stub_model)) = inr resp
    /\ len (EmbeddingResponse.embeddings resp) = 3
    /\ Forall2 (fun s v => v = stub_vector false s) ["hello"; ""; "projects"]
         (EmbeddingResponse.embeddings resp)
    /\ EmbeddingResponse.embeddings resp
       = [ [5%float; 0%float]; [0%float; 0%float]; [8%float; 0%float] ].
Proof.
  destruct (embed_one_vector_per_text
              (fun s v => v = stub_vector false s)
              (EmbeddingRequest.init ["hello"; ""; "projects"] (Some false))
              (loaded stub_model) stub_model
              {| shape := (3%nat, 2%nat);
                 item := fun i j =>
                   nth j (stub_vector false
                            (nth i ["hello"; ""; "projects"] "")) 0%float |}
              eq_refl
              ltac:(discriminate)
              ltac:(vm_compute; discriminate)
              eq_refl
              ltac:(repeat constructor))
    as [resp [Ho [Hl [HR He]]]].
  exists resp. split; [exact Ho|]. split; [exact Hl|]. split; [exact HR|].
  exact He.
Defined.

(** Once the run is known, statements about its status code and its trace
    are equations between numerals and memberships in a short list. *)
Ltac settle_status :=
  unfold rejected, no_encode_call, not, len in *; simpl;
  repeat split; intros;
  repeat match goal with
    | H : _ \/ _ |- _ => destruct H
    | H : _ /\ _ |- _ => destruct H
    | H : False |- _ => destruct H
    end;
  try congruence; try lia;
  try (left; congruence); try (right; lia).

(** C2: [POST /embed] answers 503 exactly when the model is not loaded;
    with the model loaded it answers 400 exactly when the batch is empty or
    has more than 100 texts, so a batch of exactly 100 is not turned away.
    The 503 check comes first (no 400 without a model, whatever the batch),
    and a request turned away with 503 or 400 made no call to [encode]. *)
Theorem embed_rejections request g :
  let r := generate_embeddings request g in
  (rejected 503 r <-> model g = None)
  /\ (model g <> None ->
      (rejected 400 r
       <-> EmbeddingRequest.texts request = []
           \/ len (EmbeddingRequest.texts request) > 100))
  /\ (model g <> None -> len (EmbeddingRequest.texts request) = 100 ->
      ~ rejected 503 r /\ ~ rejected 400 r)
  /\ (model g = None -> ~ rejected 400 r)
  /\ (rejected 503 r \/ rejected 400 r -> no_encode_call r).
Proof.
  intro r. subst r.
  destruct (embed_run_cases request g)
    as [Hm | [[m [Hm Ht]] | [[m [Hm Ht]] | [[m [e [Hm [Hne [Hle He]]]]]
                                            | [m [a [Hm [Hne [Hle He]]]]]]]]].
  - rewrite (embed_run_unloaded _ _ Hm). settle_status.
  - rewrite (embed_run_no_texts _ _ _ Hm Ht). rewrite Ht. settle_status.
  - rewrite (embed_run_too_many _ _ _ Hm Ht). settle_status.
  - rewrite (embed_run_encode_raised _ _ _ _ Hm Hne Hle He). settle_status.
  - rewrite (embed_run_encode_returned _ _ _ _ Hm Hne Hle He). settle_status.
Qed.

Lemma embed_rejections_witness :
  rejected 503 (generate_embeddings
                  (EmbeddingRequest.init ["hello"] None) initial_globals)
  /\ rejected 400 (generate_embeddings
                     (EmbeddingRequest.init (repeat "x" 101) None)
                     (loaded stub_model))
  /\ rejected 400 (generate_embeddings
                     (EmbeddingRequest.init [] None) (loaded stub_model))
  /\ ~ rejected 400 (generate_embeddings
                       (EmbeddingRequest.init (repeat "x" 100) None)
                       (loaded stub_model))
  /\ no_encode_call (generate_embeddings
                       (EmbeddingRequest.init (repeat "x" 101) None)
                       (loaded stub_model)).
Proof.
  pose proof (embed_rejections
                (EmbeddingRequest.init ["hello"] None) initial_globals) as U.
  pose proof (embed_rejections
                (EmbeddingRequest.init (repeat "x" 101) None)
                (loaded stub_model)) as Over.
  pose proof (embed_rejections
                (EmbeddingRequest.init [] None) (loaded stub_model)) as Empty.
  pose proof (embed_rejections
                (EmbeddingRequest.init (repeat "x" 100) None)
                (loaded stub_model)) as Full.
  cbv zeta in U, Over, Empty, Full.
  destruct U as [U _].
  destruct Over as [_ [Over [_ [_ OverCall]]]].
  destruct Empty as [_ [Empty _]].
  destruct Full as [_ [_ [Full _]]].
  assert (L : model (loaded stub_model) <> None) by discriminate.
  assert (R101 : rejected 400 (generate_embeddings
                                 (EmbeddingRequest.init (repeat "x" 101) None)
                                 (loaded stub_model))).
  { apply (Over L). right. vm_compute. reflexivity. }
  split; [apply U; reflexivity|].
  split; [exact R101|].
  split; [apply (Empty L); left; reflexivity|].
  split; [apply (Full L); vm_compute; reflexivity|].
  apply OverCall. right. exact R101.
Defined.

(** C3: in every successful [POST /embed] response all vectors have one
    and the same length, which is the [dimensions] field; [dimensions] is
    the length of the first vector, and 0 when there is none. *)
Theorem embed_uniform_dimensions request g resp :
  outcome (generate_embeddings request g) = inr resp ->
  Forall (fun v => len v = EmbeddingResponse.dimensions resp)
    (EmbeddingResponse.embeddings resp)
  /\ EmbeddingResponse.dimensions resp
     = match EmbeddingResponse.embeddings resp with
       | [] => 0
       | v :: _ => len v
       end.
Proof.
  intro H.
  destruct (embed_returns_inv _ _ _ H) as [m [a [_ [_ [_ [_ ->]]]]]].
  simpl. split.
  - apply first_len_rows.
  - unfold first_len. destruct (tolist a); reflexivity.
Qed.

Lemma embed_uniform_dimensions_witness :
  let resp := {| EmbeddingResponse.embeddings :=
                   [ [1%float; 0%float]; [1%float; 0%float] ];
                 EmbeddingResponse.model := MODEL_NAME;
                 EmbeddingResponse.dimensions := 2 |} in
  outcome (generate_embeddings
             (EmbeddingRequest.init ["hello"; "projects"] None)
             (loaded stub_model)) = inr resp
  /\ Forall (fun v => len v = 2) (EmbeddingResponse.embeddings resp)
  /\ EmbeddingResponse.dimensions resp = len [1%float; 0%float].
Proof.
  intro resp.
  assert (Run : outcome (generate_embeddings
                           (EmbeddingRequest.init ["hello"; "projects"] None)
                           (loaded stub_model)) = inr resp) by reflexivity.
  split; [exact Run|].
  exact (embed_uniform_dimensions _ _ _ Run).
Defined.

(** C4: when a request passes both checks and the [encode] call raises
    [e], the run ends in [HTTPException] 500 with [str(e)] as detail: it
    returns no response, so no embeddings, and it leaves the module globals
    as they were.  All it did was call [encode] once and log the error.  A
    run ends either in a whole response or in an exception, never both. *)
Theorem embed_internal_failure request g m e :
  model g = Some m ->
  EmbeddingRequest.texts request <> [] ->
  len (EmbeddingRequest.texts request) <= 100 ->
  encode m (EmbeddingRequest.texts request)
    (EmbeddingRequest.normalize request) false = inl e ->
  let r := generate_embeddings request g in
  outcome r = inl (mkHTTPException 500 (str e))
  /\ (forall resp, outcome r <> inr resp)
  /\ globals r = g
  /\ trace r = [ EncodeCall (EmbeddingRequest.texts request)
                   (EmbeddingRequest.normalize request) false;
                 LogError ("Error generating embeddings: " ++ str e) ].
Proof.
  intros Hm Hne Hle He r. subst r.
  rewrite (embed_run_encode_raised _ _ _ _ Hm Hne Hle He). simpl.
  repeat split. intros resp. discriminate.
Qed.

Lemma embed_internal_failure_witness :
  let r := generate_embeddings
             (EmbeddingRequest.init ["hello"] None) (loaded failing_model) in
  outcome r = inl (mkHTTPException 500 "CUDA out of memory")
  /\ (forall resp, outcome r <> inr resp)
  /\ globals r = loaded failing_model
  /\ trace r = [ EncodeCall ["hello"] true false;
                 LogError "Error generating embeddings: CUDA out of memory" ].
Proof.
  exact (embed_internal_failure
           (EmbeddingRequest.init ["hello"] None) (loaded failing_model)
           failing_model (mkException "RuntimeError" "CUDA out of memory")
           eq_refl ltac:(discriminate) ltac:(vm_compute; discriminate) eq_refl).
Defined.

(** C6: the [model_loaded] entry of [GET /health] says whether the global
    [model] holds a model: false on the globals the module starts with,
    true once the startup hook has run and the library returned a model,
    and still false when the startup hook failed. *)
Theorem health_reports_model_loaded :
  (forall g,
      exists d, outcome (health_check g) = inr d
                /\ dict_get "model_loaded" d
                   = Some (VBool (match model g with
                                  | Some _ => true
                                  | None => false
                                  end)))
  /\ (exists d, outcome (health_check initial_globals) = inr d
                /\ dict_get "model_loaded" d = Some (VBool false))
  /\ (forall init m,
         init MODEL_NAME = inr m ->
         exists d,
           outcome (health_check (globals (load_model init initial_globals)))
           = inr d
           /\ dict_get "model_loaded" d = Some (VBool true))
  /\ (forall init e,
         init MODEL_NAME = inl e ->
         outcome (load_model init initial_globals) = inl e
         /\ exists d,
           outcome (health_check (globals (load_model init initial_globals)))
           = inr d
           /\ dict_get "model_loaded" d = Some (VBool false)).
Proof.
  repeat split.
  - intro g. rewrite health_check_run. eexists. split; reflexivity.
  - eexists. split; reflexivity.
  - intros init m H. rewrite (load_model_loads _ _ _ H).
    eexists. split; reflexivity.
  - rewrite (load_model_fails _ _ _ H). reflexivity.
  - rewrite (load_model_fails _ _ _ H). eexists. split; reflexivity.
Qed.

Lemma health_reports_model_loaded_witness :
  exists d,
    outcome (health_check (globals (load_model stub_hub initial_globals)))
    = inr d
    /\ dict_get "model_loaded" d = Some (VBool true).
Proof.
  destruct health_reports_model_loaded as [_ [_ [Loaded _]]].
  exact (Loaded stub_hub stub_model eq_refl).
Defined.

(** C7: a request built without a [normalize] field has
    [normalize = True]; every [encode] call its handling makes passes
    [normalize_embeddings=True], and with the model loaded and the batch
    accepted that call is made, first thing, on the request's texts. *)
Theorem embed_normalize_default texts :
  EmbeddingRequest.normalize (EmbeddingRequest.init texts None) = true
  /\ (forall g s n p,
         In (EncodeCall s n p)
           (trace (generate_embeddings (EmbeddingRequest.init texts None) g)) ->
         n = true)
  /\ (forall g m,
         model g = Some m -> texts <> [] -> len texts <= 100 ->
         exists rest,
           trace (generate_embeddings (EmbeddingRequest.init texts None) g)
           = EncodeCall texts true false :: rest).
Proof.
  split; [reflexivity|]. split.
  - intros g s n p.
    destruct (embed_run_cases (EmbeddingRequest.init texts None) g)
      as [Hm | [[m [Hm Ht]] | [[m [Hm Ht]] | [[m [e [Hm [Hne [Hle He]]]]]
                                              | [m [a [Hm [Hne [Hle He]]]]]]]]].
    + rewrite (embed_run_unloaded _ _ Hm). intros [].
    + rewrite (embed_run_no_texts _ _ _ Hm Ht). intros [].
    + rewrite (embed_run_too_many _ _ _ Hm Ht). intros [].
    + rewrite (embed_run_encode_raised _ _ _ _ Hm Hne Hle He). simpl.
      intros [H|[H|[]]]; congruence.
    + rewrite (embed_run_encode_returned _ _ _ _ Hm Hne Hle He). simpl.
      intros [H|[H|[]]]; congruence.
  - intros g m Hm Hne Hle.
    destruct (encode m texts true false) as [e|a] eqn:He.
    + rewrite (embed_run_encode_raised
                 (EmbeddingRequest.init texts None) _ _ _ Hm Hne Hle He).
      eexists. reflexivity.
    + rewrite (embed_run_encode_returned
                 (EmbeddingRequest.init texts None) _ _ _ Hm Hne Hle He).
      eexists. reflexivity.
Qed.

Lemma embed_normalize_default_witness :
  exists rest,
    trace (generate_embeddings
             (EmbeddingRequest.init ["hello"; "projects"] None)
             (loaded stub_model))
    = EncodeCall ["hello"; "projects"] true false :: rest.
Proof.
  destruct (embed_normalize_default ["hello"; "projects"]) as [_ [_ Called]].
  exact (Called (loaded stub_model) stub_model
           eq_refl ltac:(discriminate) ltac:(vm_compute; discriminate)).
Defined.

(** The same request, run: one [encode] call with normalisation on, then
    the log record. *)
Example embed_default_request_trace :
  trace (generate_embeddings
           (EmbeddingRequest.init ["hello"; "projects"] None)
           (loaded stub_model))
  = [ EncodeCall ["hello"; "projects"] true false;
      LogInfo "Generated 2 embeddings" ].
Proof. reflexivity. Qed.

(** C8: the three route handlers leave the module globals, and so the
    [model] reference, exactly as they found them, whether they return or
    raise; hence so does any sequence of requests served one after the
    other. *)
Theorem handlers_preserve_model g :
  (forall request, globals (generate_embeddings request g) = g)
  /\ globals (health_check g) = g
  /\ globals (root g) = g
  /\ (forall rts, serve_all rts g = g).
Proof.
  split; [|split; [|split]].
  - intro request. apply preserves_generate_embeddings.
  - apply preserves_health_check.
  - apply preserves_root.
  - intro rts. unfold serve_all. induction rts as [|rt rts IH]; simpl.
    + reflexivity.
    + rewrite serve_preserves. exact IH.
Qed.

(** The startup hook is the one place that assigns [model]. *)
Example load_model_assigns :
  globals (load_model stub_hub initial_globals) = loaded stub_model
  /\ loaded stub_model <> initial_globals.
Proof. split; [reflexivity|discriminate]. Qed.

(** C9: [GET /health] reports status "healthy" whatever the globals hold,
    also before the model is loaded; the status entry does not depend on
    readiness.  The [model_loaded] entry is the one that does: in every
    state it says whether the global [model] holds a model, so it is false
    before the load and true with a model loaded, under the same
    "healthy" status. *)
Theorem health_check_always_healthy :
  (forall g,
      exists d, outcome (health_check g) = inr d
                /\ dict_get "status" d = Some (VStr "healthy")
                /\ dict_get "model_loaded" d
                   = Some (VBool (match model g with
                                  | Some _ => true
                                  | None => false
                                  end)))
  /\ (exists d, outcome (health_check initial_globals) = inr d
                /\ dict_get "status" d = Some (VStr "healthy")
                /\ dict_get "model_loaded" d = Some (VBool false))
  /\ (forall m,
         exists d, outcome (health_check {| model := Some m |}) = inr d
                   /\ dict_get "status" d = Some (VStr "healthy")
                   /\ dict_get "model_loaded" d = Some (VBool true)).
Proof.
  split; [|split].
  - intro g. rewrite health_check_run. eexists. repeat split; reflexivity.
  - eexists. repeat split; reflexivity.
  - intro m. eexists. repeat split; reflexivity.
Qed.

(** C10: if the loaded model's [encode] returns one row per sentence, then
    whenever [generate_embeddings] gets as far as shaping a response the
    embeddings list has a first vector, and [dimensions] is its length:
    the 0 branch of line 104 is not taken. *)
Theorem embed_dimensions_branch request g resp :
  (forall m, model g = Some m -> one_row_per_sentence m) ->
  outcome (generate_embeddings request g) = inr resp ->
  EmbeddingResponse.embeddings resp <> []
  /\ exists v rest,
       EmbeddingResponse.embeddings resp = v :: rest
       /\ EmbeddingResponse.dimensions resp = len v.
Proof.
  intros Hrows H.
  destruct (embed_returns_inv _ _ _ H) as [m [a [Hm [Hne [_ [He ->]]]]]].
  simpl.
  pose proof (Hrows m Hm _ _ _ _ He) as Hshape.
  pose proof (tolist_length a) as Hlen. rewrite Hshape in Hlen.
  destruct (tolist a) as [|v rest] eqn:E.
  - destruct (EmbeddingRequest.texts request); [congruence|discriminate].
  - split; [discriminate|]. exists v, rest. split; reflexivity.
Qed.

Lemma stub_model_one_row_per_sentence : one_row_per_sentence stub_model.
Proof. intros sentences n p a H. injection H as <-. reflexivity. Qed.

Lemma embed_dimensions_branch_witness :
  exists resp,
    outcome (generate_embeddings
               (EmbeddingRequest.init ["hello"] None) (loaded stub_model))
    = inr resp
    /\ EmbeddingResponse.embeddings resp <> []
    /\ EmbeddingResponse.dimensions resp = 2.
Proof.
  eexists. split; [reflexivity|].
  destruct (embed_dimensions_branch
              (EmbeddingRequest.init ["hello"] None) (loaded stub_model) _
              ltac:(intros m Hm; injection Hm as <-;
                    exact stub_model_one_row_per_sentence)
              eq_refl) as [Hne _].
  split; [exact Hne|reflexivity].
Defined.

(* ================================================================= *)
(** ** Further properties: the startup hook *)

Lemma serve_all_preserves rts g : serve_all rts g = g.
Proof.
  unfold serve_all. induction rts as [|rt rts IH]; simpl.
  - reflexivity.
  - rewrite serve_preserves. exact IH.
Qed.

(** The two runs of [load_model], by what the constructor did. *)
Lemma load_model_cases init g :
  (exists m, init MODEL_NAME = inr m
             /\ load_model init g
                = mkRun (inr tt) {| model := Some m |}
                    [ LogInfo ("Loading model: " ++ MODEL_NAME);
                      LoadCall MODEL_NAME;
                      LogInfo "Model loaded successfully" ])
  \/ (exists e, init MODEL_NAME = inl e
                /\ load_model init g
                   = mkRun (inl e) g
                       [ LogInfo ("Loading model: " ++ MODEL_NAME);
                         LoadCall MODEL_NAME;
                         LogError ("Failed to load model: " ++ str e) ]).
Proof.
  destruct (init MODEL_NAME) as [e|m] eqn:H.
  - right. exists e. split; [reflexivity|]. now apply load_model_fails.
  - left. exists m. split; [reflexivity|]. now apply load_model_loads.
Qed.

(** X1: the startup hook returns normally exactly when the library
    constructor returned a model, and then the global [model] holds that
    model, whatever it held before; the hook never returns with the model
    missing.  Either way it calls the constructor once, with
    [MODEL_NAME]. *)
Theorem load_model_returns_iff init g :
  let r := load_model init g in
  (outcome r = inr tt <-> exists m, init MODEL_NAME = inr m)
  /\ (outcome r = inr tt ->
      exists m, init MODEL_NAME = inr m /\ model (globals r) = Some m)
  /\ load_calls (trace r) = [LoadCall MODEL_NAME].
Proof.
  intro r. subst r.
  destruct (load_model_cases init g) as [[m [Hi ->]] | [e [Hi ->]]]; simpl.
  - repeat split.
    + intros _. now exists m.
    + intros _. exists m. split; [assumption|reflexivity].
  - repeat split; try discriminate.
    intros [m Hm]. congruence.
Qed.

Lemma load_model_returns_iff_witness :
  outcome (load_model stub_hub initial_globals) = inr tt
  /\ model (globals (load_model stub_hub initial_globals)) = Some stub_model.
Proof.
  destruct (load_model_returns_iff stub_hub initial_globals) as [Iff [Set_ _]].
  cbv zeta in Iff, Set_.
  assert (Ok : outcome (load_model stub_hub initial_globals) = inr tt).
  { apply Iff. exists stub_model. reflexivity. }
  split; [exact Ok|].
  destruct (Set_ Ok) as [m [Hm Hg]].
  rewrite Hg. f_equal. vm_compute in Hm. injection Hm as <-. reflexivity.
Defined.

(** X2: when the constructor raises [e], the startup hook raises [e]
    itself to its caller, with the class and the message it came with and
    not wrapped in another exception; it does not assign [model] (a model
    already there stays), logs the failure with [str(e)] and does not log
    success. *)
Theorem load_model_failure init g e :
  init MODEL_NAME = inl e ->
  let r := load_model init g in
  outcome r = inl e
  /\ (forall e', outcome r = inl e' ->
                 class_name e' = class_name e /\ str e' = str e)
  /\ globals r = g
  /\ log_records (trace r)
     = [ LogInfo ("Loading model: " ++ MODEL_NAME);
         LogError ("Failed to load model: " ++ str e) ]
  /\ ~ In (LogInfo "Model loaded successfully") (trace r).
Proof.
  intros H r. subst r.
  destruct (load_model_cases init g) as [[m [Hi _]] | [e' [Hi ->]]];
    [congruence|].
  assert (e' = e) as -> by congruence.
  simpl. repeat split.
  - injection H0 as <-. reflexivity.
  - injection H0 as <-. reflexivity.
  - intros [F|[F|[F|[]]]]; discriminate.
Qed.

Lemma load_model_failure_witness :
  let r := load_model (fun _ => inl (mkException "OSError" "no network"))
             (loaded stub_model) in
  outcome r = inl (mkException "OSError" "no network")
  /\ globals r = loaded stub_model.
Proof.
  intro r.
  destruct (load_model_failure
              (fun _ => inl (mkException "OSError" "no network"))
              (loaded stub_model)
              (mkException "OSError" "no network") eq_refl)
    as [Ho [_ [Hg _]]].
  split; assumption.
Defined.

(** X3: once the startup hook has run with the constructor returning [m],
    then after any sequence of requests the global still holds [m],
    [GET /health] reports [model_loaded] true and no [POST /embed] is
    answered 503. *)
Theorem service_ready_after_startup init m rts request :
  init MODEL_NAME = inr m ->
  let g := serve_all rts (globals (load_model init initial_globals)) in
  model g = Some m
  /\ ~ rejected 503 (generate_embeddings request g)
  /\ exists d, outcome (health_check g) = inr d
               /\ dict_get "model_loaded" d = Some (VBool true).
Proof.
  intros H g. subst g. rewrite serve_all_preserves.
  rewrite (load_model_loads _ _ _ H). simpl.
  split; [reflexivity|]. split.
  - set (g := {| model := Some m |}).
    destruct (embed_run_cases request g)
      as [Hm | [[m' [Hm Ht]] | [[m' [Hm Ht]] | [[m' [e [Hm [Hne [Hle He]]]]]
                                               | [m' [a [Hm [Hne [Hle He]]]]]]]]].
    + discriminate.
    + rewrite (embed_run_no_texts _ _ _ Hm Ht). unfold rejected. simpl. lia.
    + rewrite (embed_run_too_many _ _ _ Hm Ht). unfold rejected. simpl. lia.
    + rewrite (embed_run_encode_raised _ _ _ _ Hm Hne Hle He).
      unfold rejected. simpl. lia.
    + rewrite (embed_run_encode_returned _ _ _ _ Hm Hne Hle He).
      unfold rejected. simpl. tauto.
  - eexists. split; reflexivity.
Qed.

Lemma service_ready_after_startup_witness :
  let g := serve_all
             [ GetHealth;
               PostEmbed (EmbeddingRequest.init [] None);
               PostEmbed (EmbeddingRequest.init ["hello"] None);
               GetRoot ]
             (globals (load_model stub_hub initial_globals)) in
  model g = Some stub_model
  /\ ~ rejected 503 (generate_embeddings (EmbeddingRequest.init ["again"] None) g).
Proof.
  intro g.
  destruct (service_ready_after_startup stub_hub stub_model
              [ GetHealth;
                PostEmbed (EmbeddingRequest.init [] None);
                PostEmbed (EmbeddingRequest.init ["hello"] None);
                GetRoot ]
              (EmbeddingRequest.init ["again"] None) eq_refl) as [Hm [Hr _]].
  split; assumption.
Defined.

(* ================================================================= *)
(** ** Further properties: [POST /embed] *)

(** Splits a goal about [generate_embeddings request g] into the five runs
    and rewrites each one to its result. *)
Ltac embed_cases request g :=
  let Hm := fresh "Hm" in
  let Ht := fresh "Ht" in
  let Hne := fresh "Hne" in
  let Hle := fresh "Hle" in
  let He := fresh "He" in
  let m := fresh "m" in
  let e := fresh "e" in
  let a := fresh "a" in
  destruct (embed_run_cases request g)
    as [Hm | [[m [Hm Ht]] | [[m [Hm Ht]] | [[m [e [Hm [Hne [Hle He]]]]]
                                            | [m [a [Hm [Hne [Hle He]]]]]]]]];
  [ rewrite (embed_run_unloaded _ _ Hm)
  | rewrite (embed_run_no_texts _ _ _ Hm Ht)
  | rewrite (embed_run_too_many _ _ _ Hm Ht)
  | rewrite (embed_run_encode_raised _ _ _ _ Hm Hne Hle He)
  | rewrite (embed_run_encode_returned _ _ _ _ Hm Hne Hle He) ].

Lemma nth_error_tolist (a : ndarray) (i : nat) :
  (i < fst (shape a))%nat ->
  nth_error (tolist a) i = Some (map (item a i) (seq 0 (snd (shape a)))).
Proof.
  intro Hi. unfold tolist. rewrite nth_error_map, nth_error_seq.
  destruct (Nat.ltb_spec i (fst (shape a))) as [_|Hge]; [reflexivity|lia].
Qed.

Lemma nth_error_row (a : ndarray) (i j : nat) :
  (j < snd (shape a))%nat ->
  nth_error (map (item a i) (seq 0 (snd (shape a)))) j = Some (item a i j).
Proof.
  intro Hj. rewrite nth_error_map, nth_error_seq.
  destruct (Nat.ltb_spec j (snd (shape a))) as [_|Hge]; [reflexivity|lia].
Qed.

(** X4: a request is answered with a response exactly when the model is
    loaded, the batch has 1 to 100 texts and [encode], called on the
    request's texts and flag, returns; the response is then shaped from
    the returned array. *)
Theorem embed_succeeds_iff request g resp :
  outcome (generate_embeddings request g) = inr resp
  <-> exists m a,
        model g = Some m
        /\ accepted (EmbeddingRequest.texts request)
        /\ encode m (EmbeddingRequest.texts request)
             (EmbeddingRequest.normalize request) false = inr a
        /\ resp = {| EmbeddingResponse.embeddings := tolist a;
                     EmbeddingResponse.model := MODEL_NAME;
                     EmbeddingResponse.dimensions := first_len (tolist a) |}.
Proof.
  split.
  - intro H.
    destruct (embed_returns_inv _ _ _ H) as [m [a [Hm [Hne [Hle [He ->]]]]]].
    exists m, a. repeat split; assumption.
  - intros [m [a [Hm [[Hne Hle] [He ->]]]]].
    rewrite (embed_run_encode_returned _ _ _ _ Hm Hne Hle He). reflexivity.
Qed.

(** X5: the exceptions [POST /embed] can end in are four: 503 "Model not
    loaded" without a model; 400 "No texts provided" for an empty batch;
    400 "Maximum 100 texts per request" for more than 100 texts; and 500
    with [str(e)] for an [e] that [encode] raised on an accepted batch.
    No 500 comes from anywhere else: the second read of [model] inside
    the [try] never finds [None]. *)
Theorem embed_failure_cases request g err :
  outcome (generate_embeddings request g) = inl err ->
  (model g = None /\ err = mkHTTPException 503 "Model not loaded")
  \/ (model g <> None /\ EmbeddingRequest.texts request = []
      /\ err = mkHTTPException 400 "No texts provided")
  \/ (model g <> None /\ len (EmbeddingRequest.texts request) > 100
      /\ err = mkHTTPException 400 "Maximum 100 texts per request")
  \/ (exists m e,
         model g = Some m
         /\ accepted (EmbeddingRequest.texts request)
         /\ encode m (EmbeddingRequest.texts request)
              (EmbeddingRequest.normalize request) false = inl e
         /\ err = mkHTTPException 500 (str e)).
Proof.
  embed_cases request g; simpl; intro H; try discriminate;
    injection H as <-.
  - left. split; [assumption|reflexivity].
  - right; left. repeat split; [congruence|assumption].
  - right; right; left. repeat split; [congruence|assumption].
  - right; right; right. exists m, e. repeat split; assumption.
Qed.

Lemma embed_failure_cases_witness :
  exists m e,
    model (loaded failing_model) = Some m
    /\ encode m ["hello"] true false = inl e
    /\ mkHTTPException 500 "CUDA out of memory" = mkHTTPException 500 (str e).
Proof.
  destruct (embed_failure_cases
              (EmbeddingRequest.init ["hello"] None) (loaded failing_model)
              (mkHTTPException 500 "CUDA out of memory") eq_refl)
    as [[F _] | [[_ [F _]] | [[_ [F _]] | [m [e [Hm [_ [He Herr]]]]]]]].
  - discriminate.
  - discriminate.
  - vm_compute in F. discriminate.
  - exists m, e. repeat split; assumption.
Defined.

(** X6: handling one request calls [encode] at most once, and never
    again after a failure; the call is made exactly when the model is
    loaded and the batch accepted, and it passes the request's texts as
    they came, the request's [normalize] flag and
    [show_progress_bar=False]. *)
Theorem embed_encode_calls request g :
  let r := generate_embeddings request g in
  let call := EncodeCall (EmbeddingRequest.texts request)
                (EmbeddingRequest.normalize request) false in
  (encode_calls (trace r) = [] \/ encode_calls (trace r) = [call])
  /\ (encode_calls (trace r) = [call]
      <-> model g <> None /\ accepted (EmbeddingRequest.texts request)).
Proof.
  intros r call. subst r call. unfold accepted.
  embed_cases request g; simpl; (split; [auto|]); split;
    try discriminate; try (intros _; split; [congruence|now split]);
    try reflexivity.
  - intros [F _]. congruence.
  - intros [_ [F _]]. congruence.
  - intros [_ [_ F]]. lia.
Qed.

(** X7: what a request leaves in the log.  A request turned away with 503
    or 400 has no effect at all; a response is preceded by one info record
    giving the number of vectors in that response; a 500 by one error
    record carrying the detail of the exception. *)
Theorem embed_log_records request g :
  let r := generate_embeddings request g in
  (rejected 503 r \/ rejected 400 r -> trace r = [])
  /\ (forall resp,
         outcome r = inr resp ->
         log_records (trace r)
         = [ LogInfo ("Generated "
                      ++ str_int (len (EmbeddingResponse.embeddings resp))
                      ++ " embeddings") ])
  /\ (forall err,
         outcome r = inl err -> status_code err = 500 ->
         log_records (trace r)
         = [ LogError ("Error generating embeddings: " ++ detail err) ]).
Proof.
  intro r. subst r. unfold rejected.
  embed_cases request g; simpl; repeat split;
    try reflexivity; try discriminate;
    try (intros ? H; injection H as <-; simpl; try reflexivity; intro; lia).
  - intros [F|F]; lia.
  - intros [[]|[]].
Qed.

Lemma embed_log_records_witness :
  log_records (trace (generate_embeddings
                        (EmbeddingRequest.init ["hello"; "projects"] None)
                        (loaded stub_model)))
  = [ LogInfo "Generated 2 embeddings" ].
Proof.
  destruct (embed_log_records
              (EmbeddingRequest.init ["hello"; "projects"] None)
              (loaded stub_model)) as [_ [Info _]].
  exact (Info _ eq_refl).
Defined.

Lemma embed_succeeds_iff_witness :
  outcome (generate_embeddings
             (EmbeddingRequest.init ["hello"] (Some false)) (loaded stub_model))
  = inr {| EmbeddingResponse.embeddings := [ [5%float; 0%float] ];
           EmbeddingResponse.model := MODEL_NAME;
           EmbeddingResponse.dimensions := 2 |}.
Proof.
  apply embed_succeeds_iff.
  exists stub_model,
    {| shape := (1%nat, 2%nat);
       item := fun i j =>
         nth j (stub_vector false (nth i ["hello"] "")) 0%float |}.
  split; [reflexivity|]. split; [|split; reflexivity].
  split; [discriminate|vm_compute; discriminate].
Defined.

Lemma embed_encode_calls_witness :
  encode_calls (trace (generate_embeddings
                         (EmbeddingRequest.init ["hello"] (Some false))
                         (loaded stub_model)))
  = [ EncodeCall ["hello"] false false ].
Proof.
  destruct (embed_encode_calls
              (EmbeddingRequest.init ["hello"] (Some false))
              (loaded stub_model)) as [_ Called].
  cbv zeta in Called. apply Called.
  split; [discriminate|]. split; [discriminate|vm_compute; discriminate].
Defined.

(** X8: when [encode] returns an array of shape [(rows, cols)] for an
    accepted batch, the response holds [rows] vectors, entry [j] of vector
    [i] is item [(i, j)] of the array, and [dimensions] is [cols], or 0
    when the array has no rows: a model that returns an empty array gets
    an empty, successful response. *)
Theorem embed_response_entries request g m a :
  model g = Some m ->
  accepted (EmbeddingRequest.texts request) ->
  encode m (EmbeddingRequest.texts request)
    (EmbeddingRequest.normalize request) false = inr a ->
  exists resp,
    outcome (generate_embeddings request g) = inr resp
    /\ len (EmbeddingResponse.embeddings resp) = Z.of_nat (fst (shape a))
    /\ EmbeddingResponse.dimensions resp
       = (if Nat.eqb (fst (shape a)) 0 then 0 else Z.of_nat (snd (shape a)))
    /\ (forall i j,
           (i < fst (shape a))%nat -> (j < snd (shape a))%nat ->
           exists row,
             nth_error (EmbeddingResponse.embeddings resp) i = Some row
             /\ nth_error row j = Some (item a i j)).
Proof.
  intros Hm [Hne Hle] He.
  rewrite (embed_run_encode_returned _ _ _ _ Hm Hne Hle He).
  eexists. split; [reflexivity|]. simpl. split; [|split].
  - unfold len. now rewrite tolist_length.
  - unfold tolist. destruct (fst (shape a)) as [|rows]; [reflexivity|].
    simpl. unfold len. now rewrite length_map, length_seq.
  - intros i j Hi Hj. eexists. split.
    + apply nth_error_tolist. exact Hi.
    + apply nth_error_row. exact Hj.
Qed.

Lemma embed_response_entries_witness :
  exists resp,
    outcome (generate_embeddings
               (EmbeddingRequest.init ["hello"] None) (loaded silent_model))
    = inr resp
    /\ len (EmbeddingResponse.embeddings resp) = 0
    /\ EmbeddingResponse.dimensions resp = 0.
Proof.
  assert (Acc : accepted ["hello"]).
  { split; [discriminate|vm_compute; discriminate]. }
  destruct (embed_response_entries
              (EmbeddingRequest.init ["hello"] None) (loaded silent_model)
              silent_model empty_array eq_refl Acc eq_refl)
    as [resp [Ho [Hl [Hd _]]]].
  exists resp. split; [exact Ho|]. split; [exact Hl|exact Hd].
Defined.

(* ================================================================= *)
(** ** Further properties: the three routes together *)

(** X9: the model name in a [POST /embed] response is the one that
    [GET /health] and [GET /] report in the same state. *)
Theorem model_name_agrees request g resp :
  outcome (generate_embeddings request g) = inr resp ->
  exists dh dr,
    outcome (health_check g) = inr dh
    /\ outcome (root g) = inr dr
    /\ dict_get "model" dh = Some (VStr (EmbeddingResponse.model resp))
    /\ dict_get "model" dr = Some (VStr (EmbeddingResponse.model resp)).
Proof.
  intro H.
  destruct (embed_returns_inv _ _ _ H) as [m [a [_ [_ [_ [_ ->]]]]]].
  do 2 eexists. repeat split; reflexivity.
Qed.

Lemma model_name_agrees_witness :
  exists dh dr,
    outcome (health_check (loaded stub_model)) = inr dh
    /\ outcome (root (loaded stub_model)) = inr dr
    /\ dict_get "model" dh = Some (VStr "all-MiniLM-L6-v2")
    /\ dict_get "model" dr = Some (VStr "all-MiniLM-L6-v2").
Proof.
  exact (model_name_agrees
           (EmbeddingRequest.init ["hello"] None) (loaded stub_model) _ eq_refl).
Defined.

(** X10: [GET /health] and [GET /] log nothing and make no library call,
    so a health check never runs the model.  The answer of [GET /] is the
    same in every state, its 384 dimensions included, whatever model is
    loaded; the answer of [GET /health] depends on the state only through
    whether a model is set. *)
Theorem info_routes_are_inert g g' :
  trace (health_check g) = []
  /\ trace (root g) = []
  /\ outcome (root g') = outcome (root g)
  /\ ((model g = None <-> model g' = None) ->
      outcome (health_check g') = outcome (health_check g)).
Proof.
  repeat split.
  intros [To From]. rewrite !health_check_run. simpl.
  destruct (model g) as [m|], (model g') as [m'|]; try reflexivity.
  - specialize (From eq_refl). discriminate.
  - specialize (To eq_refl). discriminate.
Qed.

Lemma info_routes_are_inert_witness :
  outcome (health_check (loaded failing_model))
  = outcome (health_check (loaded stub_model)).
Proof.
  destruct (info_routes_are_inert (loaded stub_model) (loaded failing_model))
    as [_ [_ [_ Same]]].
  apply Same. split; discriminate.
Defined.

(** The checks before the [try] look at the number of texts only: an
    exception they raise for one request is raised for any other request
    with as many texts. *)
Lemma validation_transfers req1 req2 g err :
  List.length (EmbeddingRequest.texts req1)
  = List.length (EmbeddingRequest.texts req2) ->
  status_code err <> 500 ->
  outcome (generate_embeddings req1 g) = inl err ->
  outcome (generate_embeddings req2 g) = inl err.
Proof.
  intros Hlen Hcode.
  embed_cases req1 g; intro H; simpl in H; try discriminate;
    injection H as <-.
  - now rewrite (embed_run_unloaded _ _ Hm).
  - rewrite (embed_run_no_texts req2 _ _ Hm); [reflexivity|].
    rewrite Ht in Hlen. simpl in Hlen.
    destruct (EmbeddingRequest.texts req2); [reflexivity|discriminate].
  - rewrite (embed_run_too_many req2 _ _ Hm); [reflexivity|].
    unfold len in *. rewrite <- Hlen. exact Ht.
  - simpl in Hcode. congruence.
Qed.

(** X11: validation never looks inside the texts nor at the [normalize]
    flag.  Two requests with the same number of texts are turned away
    with 503 or 400 alike, with the same detail; so a batch of empty
    strings passes the checks like any other batch of its size. *)
Theorem validation_by_count_only req1 req2 g err :
  List.length (EmbeddingRequest.texts req1)
  = List.length (EmbeddingRequest.texts req2) ->
  status_code err <> 500 ->
  (outcome (generate_embeddings req1 g) = inl err
   <-> outcome (generate_embeddings req2 g) = inl err).
Proof.
  intros Hlen Hcode. split.
  - now apply validation_transfers.
  - apply validation_transfers; [symmetry; exact Hlen|exact Hcode].
Qed.

Lemma validation_by_count_only_witness :
  outcome (generate_embeddings
             (EmbeddingRequest.init (repeat "" 101) (Some false))
             (loaded stub_model))
  = inl (mkHTTPException 400 "Maximum 100 texts per request").
Proof.
  apply (validation_by_count_only
           (EmbeddingRequest.init (repeat "projects" 101) None)
           (EmbeddingRequest.init (repeat "" 101) (Some false))
           (loaded stub_model)
           (mkHTTPException 400 "Maximum 100 texts per request")).
  - vm_compute. reflexivity.
  - simpl. lia.
  - vm_compute. reflexivity.
Defined.
